(** * Calculadora de Integrales: the Flask back end [app.py]

    A shallow embedding of [clean_array_for_json] and of the [/calculate]
    request handler.  SymPy, NumPy's numeric kernels, Python's [float] and
    Flask's request parsing are outside the repository: the handler is
    written over an interface [Libs] that names exactly the calls the source
    makes.  Everything the source does itself (defaults of the request
    fields, the order of the calls, the three [try] blocks, the [1e6] clamp,
    the sanitizer, the assembly of the response) is modelled as written.

    Python exceptions are values [Raise msg] where [msg] is [str(e)];
    NumPy [float64] values are Rocq's primitive binary64 floats. *)

From Stdlib Require Import Floats List String ZArith Bool Lia.
Import ListNotations.

Local Open Scope string_scope.

(** ** Exceptions

    [Raise msg] is an exception derived from [Exception], the only kind the
    handler catches (line 182).  Runs in which a library call does not
    return, or raises something else ([KeyboardInterrupt], [SystemExit]),
    are outside the model. *)

Inductive result (A : Type) : Type :=
| Ok (a : A)
| Raise (msg : string).

Arguments Ok {A} a.
Arguments Raise {A} msg.

Definition bind {A B : Type} (r : result A) (k : A -> result B) : result B :=
  match r with
  | Ok a => k a
  | Raise msg => Raise msg
  end.

Notation "x <- r ;; k" := (bind r (fun x => k))
  (at level 61, r at next level, right associativity).

(** [try: r except Exception: d] for a block whose value is all that is kept. *)
Definition try_or {A : Type} (r : result A) (d : A) : A :=
  match r with
  | Ok a => a
  | Raise _ => d
  end.

(** ** Values of the request: what [request.json] can hold.
    Python's [None] is [JNull]. *)

#[local] Unset Elimination Schemes.

Inductive jvalue : Type :=
| JNull
| JBool (b : bool)
| JInt (z : Z)
| JFloat (f : float)
| JStr (s : string)
| JArr (items : list jvalue)
| JObj (fields : list (string * jvalue)).

#[local] Set Elimination Schemes.

Definition type_name (v : jvalue) : string :=
  match v with
  | JNull => "NoneType"
  | JBool _ => "bool"
  | JInt _ => "int"
  | JFloat _ => "float"
  | JStr _ => "str"
  | JArr _ => "list"
  | JObj _ => "dict"
  end.

Fixpoint lookup (key : string) (fields : list (string * jvalue)) : option jvalue :=
  match fields with
  | [] => None
  | (k, v) :: rest => if String.eqb k key then Some v else lookup key rest
  end.

(** [data.get(key, default)]: only a dict has [get]. *)
Definition dict_get (fields : list (string * jvalue)) (key : string)
    (default : jvalue) : jvalue :=
  match lookup key fields with
  | Some v => v
  | None => default
  end.

Definition get (data : jvalue) (key : string) (default : jvalue) : result jvalue :=
  match data with
  | JObj fields => Ok (dict_get fields key default)
  | _ => Raise ("'" ++ type_name data ++ "' object has no attribute 'get'")
  end.

Definition is_None (v : jvalue) : bool :=
  match v with
  | JNull => true
  | _ => false
  end.

Definition hashable (v : jvalue) : bool :=
  match v with
  | JArr _ | JObj _ => false
  | _ => true
  end.

(** ** NumPy values

    What a lambdified expression returns on a [float64] array, once
    [np.where(..., np.nan, ...)] has promoted it: entries are [float64] or
    [complex128] (an integer or boolean result is promoted to [float64]; an
    object array of Python floats behaves as [float64]).  The shape is that
    of the input for a scalar expression, a bare scalar for an expression
    without the variable (the generated function does not broadcast a
    constant), and two or more dimensions for a matrix-valued expression. *)

Inductive scalar : Type :=
| F64 (v : float)
| C128 (re im : float).

#[local] Unset Elimination Schemes.

(** [NdN rows]: an array of two or more dimensions, each row being an array
    of one dimension less. *)
Inductive ndarray : Type :=
| Nd0 (e : scalar)
| Nd1 (l : list scalar)
| NdN (rows : list ndarray).

(** Python values in the lists sent back: [None], a [float], a [complex]
    (which [arr.tolist()] yields for a complex array), or a nested list
    (which it yields for each row of an array of two or more dimensions). *)
Inductive pyval : Type :=
| PyNone
| PyFloat (v : float)
| PyComplex (re im : float)
| PyList (items : list pyval).

#[local] Set Elimination Schemes.

(** ** The response *)

Record points : Type := mk_points {
  xs : list pyval;
  ys : list pyval
}.

Record payload : Type := mk_payload {
  integral : string;
  integral_text : string;
  function_points : option points;
  integral_points : option points;
  definite_value : option float;
  area_points : option points
}.

(** [{'success': True, ...}] or [{'success': False, 'error': ...}]. *)
Inductive body : Type :=
| Success (p : payload)
| Failure (error : string).

Record http_response : Type := mk_response {
  status : Z;
  json_body : body
}.

Definition success (b : body) : bool :=
  match b with
  | Success _ => true
  | Failure _ => false
  end.

(** ** The external libraries, as the source calls them *)

Record Libs : Type := {
  Sym : Type;
  Expr : Type;
  Lam : Type;
  Transformation : Type;
  standard_transformations : list Transformation;
  implicit_multiplication_application : Transformation;
  (** [sp.Symbol(name)] *)
  sp_Symbol : jvalue -> result Sym;
  (** [parse_expr(s, local_dict=d, transformations=t)] *)
  parse_expr : jvalue -> list (jvalue * Sym) -> list Transformation -> result Expr;
  (** [sp.integrate(f, x)] *)
  sp_integrate : Expr -> Sym -> result Expr;
  (** [sp.integrate(f, (x, a, b))] *)
  sp_integrate_between : Expr -> Sym -> float -> float -> result Expr;
  (** [sp.lambdify(x, f, modules=['numpy'])] *)
  sp_lambdify : Sym -> Expr -> result Lam;
  (** calling the lambdified function on an array; a returned object that
      [np.abs], [>] or [np.where] reject is counted as a raise here, since
      every call sits in the same [try] as those operations *)
  call : Lam -> ndarray -> result ndarray;
  (** [sp.latex(e)], [str(e)], [float(e)] on an expression *)
  sp_latex : Expr -> result string;
  str_expr : Expr -> result string;
  float_expr : Expr -> result float;
  (** Python's [float] on a [str] and on an [int] *)
  float_str : string -> result float;
  float_int : Z -> result float;
  (** [np.abs] on one [complex128] *)
  abs_complex : float -> float -> float
}.

(** ** [np.linspace(start, stop, num)]

    Modelled from the spec: NumPy is not part of the repository; the spec
    asks for [num] evenly spaced points over the closed interval.  The
    definition follows NumPy's own steps: [arange(num) * step + start] with
    [step = (stop - start) / (num - 1)], the last point overwritten by
    [stop]. *)

Definition float_of_nat (n : nat) : float :=
  PrimFloat.of_uint63 (Uint63.of_Z (Z.of_nat n)).

Definition set_last (l : list float) (v : float) : list float :=
  match l with
  | [] => []
  | _ => removelast l ++ [v]
  end.

Definition linspace (start stop : float) (num : nat) : list float :=
  let div := (num - 1)%nat in
  let delta := (stop - start)%float in
  let y := map float_of_nat (seq 0 num) in
  let y :=
    match div with
    | O => map (fun i => i * delta)%float y
    | _ =>
        let step := (delta / float_of_nat div)%float in
        if (step =? 0)%float
        then map (fun i => (i / float_of_nat div) * delta)%float y
        else map (fun i => i * step)%float y
    end in
  let y := map (fun v => v + start)%float y in
  if (1 <? num)%nat then set_last y stop else y.

Definition np_linspace (start stop : float) (num : nat) : ndarray :=
  Nd1 (map F64 (linspace start stop num)).

(** ** [clean_array_for_json] (lines 24-38) *)

Definition py_of_scalar (e : scalar) : pyval :=
  match e with
  | F64 v => PyFloat v
  | C128 re im => PyComplex re im
  end.

(** [arr.tolist()]: a bare number for a 0-d array, a list of numbers for a
    1-d array, nested lists beyond. *)
Fixpoint tolist (arr : ndarray) : pyval :=
  match arr with
  | Nd0 e => py_of_scalar e
  | Nd1 l => PyList (map py_of_scalar l)
  | NdN rows => PyList (map tolist rows)
  end.

(** [for x in cleaned]: only a list can be iterated. *)
Definition iterate (cleaned : pyval) : result (list pyval) :=
  match cleaned with
  | PyList items => Ok items
  | PyFloat _ => Raise "'float' object is not iterable"
  | PyComplex _ _ => Raise "'complex' object is not iterable"
  | PyNone => Raise "'NoneType' object is not iterable"
  end.

(** [None if (isinstance(x, float) and (np.isnan(x) or np.isinf(x))) else x]:
    a complex number or a nested list is not a [float] and is kept. *)
Definition clean_item (x : pyval) : pyval :=
  match x with
  | PyFloat v => if is_nan v || is_infinity v then PyNone else x
  | _ => x
  end.

(** The comprehension on one entry of a 1-d array. *)
Definition clean_element (x : scalar) : pyval := clean_item (py_of_scalar x).

Definition clean_array_for_json (arr : ndarray) : result (list pyval) :=
  cleaned <- iterate (tolist arr) ;;
  Ok (map clean_item cleaned).

(** ** [np.where(np.abs(y) > 1e6, np.nan, y)] (lines 109, 129, 158) *)

Definition too_large (L : Libs) (e : scalar) : bool :=
  match e with
  | F64 v => (1e6 <? abs v)%float
  | C128 re im => (1e6 <? abs_complex L re im)%float
  end.

Definition clamp (L : Libs) (e : scalar) : scalar :=
  if too_large L e then
    match e with
    | F64 _ => F64 nan
    | C128 _ _ => C128 nan 0
    end
  else e.

(** Element-wise, whatever the shape. *)
Fixpoint where_too_large_nan (L : Libs) (y : ndarray) : ndarray :=
  match y with
  | Nd0 e => Nd0 (clamp L e)
  | Nd1 l => Nd1 (map (clamp L) l)
  | NdN rows => NdN (map (where_too_large_nan L) rows)
  end.

(** A float that is NaN or an infinity, by its IEEE classification. *)
Definition non_finite (v : float) : Prop :=
  Prim2SF v = S754_nan \/ exists s, Prim2SF v = S754_infinity s.

(** No float at any depth of a Python value has a magnitude above 1e6
    (an infinity included), and no complex number occurs in it. *)
Fixpoint within_range (v : pyval) : bool :=
  match v with
  | PyNone => true
  | PyFloat f => negb (1e6 <? abs f)%float
  | PyComplex _ _ => false
  | PyList items => forallb within_range items
  end.

(** ** [jsonify] *)

(** The encoder writes [None], floats ([NaN] and [Infinity] included) and
    lists of such; it raises on a [complex]. *)
Fixpoint serializable (v : pyval) : bool :=
  match v with
  | PyComplex _ _ => false
  | PyList items => forallb serializable items
  | _ => true
  end.

Definition points_serializable (p : option points) : bool :=
  match p with
  | None => true
  | Some s => forallb serializable (xs s) && forallb serializable (ys s)
  end.

Definition body_serializable (b : body) : bool :=
  match b with
  | Failure _ => true
  | Success p =>
      points_serializable (function_points p)
      && points_serializable (integral_points p)
      && points_serializable (area_points p)
  end.

(** A response with status 200, or [TypeError] on a value the JSON encoder
    does not know ([NaN] and [Infinity] floats are written as such). *)
Definition jsonify (b : body) : result http_response :=
  if body_serializable b
  then Ok (mk_response 200 b)
  else Raise "Object of type complex is not JSON serializable".

(** ** The handler (lines 49-187) *)

Section Handler.

Context (L : Libs).

(** Module-level state the handler reads (line 21). *)
Record globals : Type := mk_globals {
  transformations : list (Transformation L)
}.

Definition module_globals : globals :=
  mk_globals (standard_transformations L ++ [implicit_multiplication_application L]).

(** [float(v)] on a request value (lines 148-149). *)
Definition py_float (v : jvalue) : result float :=
  match v with
  | JStr s => float_str L s
  | JInt z => float_int L z
  | JFloat f => Ok f
  | JBool b => Ok (if b then 1 else 0)%float
  | _ => Raise ("float() argument must be a string or a real number, not '"
                ++ type_name v ++ "'")
  end.

(** [{variable_str: x}] (line 88). *)
Definition local_dict (variable_str : jvalue) (x : Sym L)
  : result (list (jvalue * Sym L)) :=
  if hashable variable_str
  then Ok [(variable_str, x)]
  else Raise ("unhashable type: '" ++ type_name variable_str ++ "'").

(** One plotted series: the body of the [try] of lines 103-116 (and
    124-135, 156-163). *)
Definition series (f : Lam L) (x_vals : ndarray) : result points :=
  y_vals <- call L f x_vals ;;
  let y_vals := where_too_large_nan L y_vals in
  x <- clean_array_for_json x_vals ;;
  y <- clean_array_for_json y_vals ;;
  Ok (mk_points x y).

(** [try: ... except Exception: points = None] *)
Definition series_or_None (f : Lam L) (x_vals : ndarray) : option points :=
  try_or (x <- series f x_vals ;; Ok (Some x)) None.

(** Lines 142-166: [definite_value] is assigned before the area is
    sampled, so a raise in the sampling leaves it set. *)
Definition definite (function : Expr L) (x : Sym L) (f_lambdified : Lam L)
    (lower_limit upper_limit : jvalue) : option float * option points :=
  if is_None lower_limit || is_None upper_limit then (None, None)
  else
    match (lower <- py_float lower_limit ;;
           upper <- py_float upper_limit ;;
           e <- sp_integrate_between L function x lower upper ;;
           v <- float_expr L e ;;
           Ok (lower, upper, v)) with
    | Raise _ => (None, None)
    | Ok (lower, upper, v) =>
        (Some v, series_or_None f_lambdified (np_linspace lower upper 100))
    end.

(** The body of the outer [try] (lines 73-180). *)
Definition calculate_try (g : globals) (request_json : result jvalue)
  : result http_response :=
  data <- request_json ;;
  function_str <- get data "function" (JStr "") ;;
  variable_str <- get data "variable" (JStr "x") ;;
  lower_limit <- get data "lower_limit" JNull ;;
  upper_limit <- get data "upper_limit" JNull ;;
  x <- sp_Symbol L variable_str ;;
  d <- local_dict variable_str x ;;
  function <- parse_expr L function_str d (transformations g) ;;
  integral <- sp_integrate L function x ;;
  let x_vals := np_linspace (-10) 10 200 in
  f_lambdified <- sp_lambdify L x function ;;
  let function_points := series_or_None f_lambdified x_vals in
  integral_lambdified <- sp_lambdify L x integral ;;
  let integral_points := series_or_None integral_lambdified x_vals in
  let '(definite_value, area_points) :=
    definite function x f_lambdified lower_limit upper_limit in
  tex <- sp_latex L integral ;;
  txt <- str_expr L integral ;;
  jsonify (Success (mk_payload tex txt function_points integral_points
                               definite_value area_points)).

(** The handler: the outer [except] turns any raise into the error body.
    The result is what Flask gets back, with the module state after the
    call. *)
Definition calculate (g : globals) (request_json : result jvalue)
  : result http_response * globals :=
  match calculate_try g request_json with
  | Ok r => (Ok r, g)
  | Raise msg => (jsonify (Failure msg), g)
  end.

End Handler.

Arguments transformations {L} g.

(** ** Reading the handler by stages

    The values the handler holds once lines 73-102 have run without a
    raise, and the response it assembles from them. *)

Section Stages.

Context (L : Libs).

Record stage : Type := mk_stage {
  function_str : jvalue;
  variable_str : jvalue;
  lower_limit : jvalue;
  upper_limit : jvalue;
  x : Sym L;
  function : Expr L;
  integral_ : Expr L;
  f_lambdified : Lam L
}.

(** Lines 74-102 ran without a raise and left the values of [s]. *)
Definition set_up (g : globals L) (request_json : result jvalue) (s : stage) : Prop :=
  exists data d,
    request_json = Ok data
    /\ get data "function" (JStr "") = Ok (function_str s)
    /\ get data "variable" (JStr "x") = Ok (variable_str s)
    /\ get data "lower_limit" JNull = Ok (lower_limit s)
    /\ get data "upper_limit" JNull = Ok (upper_limit s)
    /\ sp_Symbol L (variable_str s) = Ok (x s)
    /\ local_dict L (variable_str s) (x s) = Ok d
    /\ parse_expr L (function_str s) d (transformations g) = Ok (function s)
    /\ sp_integrate L (function s) (x s) = Ok (integral_ s)
    /\ sp_lambdify L (x s) (function s) = Ok (f_lambdified s).

(** [x_vals] (line 98). *)
Definition x_vals : ndarray := np_linspace (-10) 10 200.

(** The dictionary of lines 169-177. *)
Definition response_of (s : stage) (integral_lambdified : Lam L) (tex txt : string)
  : payload :=
  mk_payload tex txt
    (series_or_None L (f_lambdified s) x_vals)
    (series_or_None L integral_lambdified x_vals)
    (fst (definite L (function s) (x s) (f_lambdified s) (lower_limit s) (upper_limit s)))
    (snd (definite L (function s) (x s) (f_lambdified s) (lower_limit s) (upper_limit s))).

(** Lines 123-180 after a set-up [s]: what is left to go wrong outside the
    inner [try] blocks. *)
Definition finish (s : stage) : result http_response :=
  integral_lambdified <- sp_lambdify L (x s) (integral_ s) ;;
  tex <- sp_latex L (integral_ s) ;;
  txt <- str_expr L (integral_ s) ;;
  jsonify (Success (response_of s integral_lambdified tex txt)).

End Stages.

Arguments function_str {L} s.
Arguments variable_str {L} s.
Arguments lower_limit {L} s.
Arguments upper_limit {L} s.
Arguments x {L} s.
Arguments function {L} s.
Arguments integral_ {L} s.
Arguments f_lambdified {L} s.

(** Consecutive points differ by [step], up to [tol]. *)
Fixpoint evenly_spaced (step tol : float) (l : list float) : bool :=
  match l with
  | a :: (b :: _) as rest =>
      (abs (b - a - step) <=? tol)%float && evenly_spaced step tol rest
  | _ => true
  end.

(** ** A recorded instance of the libraries

    What SymPy, NumPy and Python's [float] return at the inputs used by the
    examples of this file, as an instance of [Libs] that computes.  Inputs
    outside the table raise ["not recorded"]; the examples never reach
    them.  Values on a grid are computed with binary64 arithmetic from the
    recorded expressions, whose constants are small integers.  The exact text of an exception message depends on the Python
    version; the examples only use that it is not empty. *)

Module Recorded.

Inductive sexpr : Type :=
| Num (n : Z)
| Rat (p q : Z)
| Flt (v : float)
| Var (name : string)
| ImaginaryUnit
| Infinity
| Add (a b : sexpr)
| Mul (a b : sexpr)
| Pow (a : sexpr) (n : nat)
| Row (a b : sexpr).

Fixpoint sexpr_eqb (a b : sexpr) : bool :=
  match a, b with
  | Num n, Num m => Z.eqb n m
  | Rat p q, Rat p' q' => Z.eqb p p' && Z.eqb q q'
  | Flt v, Flt w => PrimFloat.Leibniz.eqb v w
  | Var s, Var t => String.eqb s t
  | ImaginaryUnit, ImaginaryUnit => true
  | Infinity, Infinity => true
  | Add a1 a2, Add b1 b2 => sexpr_eqb a1 b1 && sexpr_eqb a2 b2
  | Mul a1 a2, Mul b1 b2 => sexpr_eqb a1 b1 && sexpr_eqb a2 b2
  | Pow a1 n, Pow b1 m => sexpr_eqb a1 b1 && Nat.eqb n m
  | Row a1 a2, Row b1 b2 => sexpr_eqb a1 b1 && sexpr_eqb a2 b2
  | _, _ => false
  end.

Definition x_ : sexpr := Var "x".

(** [sp.Symbol] wants a [str]. *)
Definition Symbol (name : jvalue) : result string :=
  match name with
  | JStr s => Ok s
  | _ => Raise ("name should be a string, not <class '" ++ type_name name ++ "'>")
  end.

(** [parse_expr] with the five standard transformations followed by
    implicit multiplication, the variable being [x]. *)
Definition dict_is_x (d : list (jvalue * string)) : bool :=
  match d with
  | [(JStr k, v)] => String.eqb k "x" && String.eqb v "x"
  | _ => false
  end.

Definition parse (s : jvalue) (d : list (jvalue * string)) (t : list unit)
  : result sexpr :=
  match s with
  | JStr text =>
      if negb (dict_is_x d && Nat.eqb (List.length t) 6) then Raise "not recorded"
      else if String.eqb text "x**2" then Ok (Pow x_ 2)
      else if String.eqb text "2x+3" then Ok (Add (Mul (Num 2) x_) (Num 3))
      else if String.eqb text "x" then Ok x_
      else if String.eqb text "5" then Ok (Num 5)
      else if String.eqb text "I" then Ok ImaginaryUnit
      else if String.eqb text "Matrix([[x, x**9]])" then Ok (Row x_ (Pow x_ 9))
      else if String.eqb text "x**" then Raise "invalid syntax (<string>, line 1)"
      else if String.eqb text "" then Raise "invalid syntax (<string>, line 0)"
      else Raise "not recorded"
  | _ => Raise "not recorded"
  end.

(** [sp.integrate(f, x)], no constant of integration. *)
Definition integrate (f : sexpr) (x : string) : result sexpr :=
  if negb (String.eqb x "x") then Raise "not recorded"
  else if sexpr_eqb f (Pow x_ 2) then Ok (Mul (Rat 1 3) (Pow x_ 3))
  else if sexpr_eqb f (Add (Mul (Num 2) x_) (Num 3))
       then Ok (Add (Pow x_ 2) (Mul (Num 3) x_))
  else if sexpr_eqb f x_ then Ok (Mul (Rat 1 2) (Pow x_ 2))
  else if sexpr_eqb f (Num 5) then Ok (Mul (Num 5) x_)
  else if sexpr_eqb f ImaginaryUnit then Ok (Mul ImaginaryUnit x_)
  else if sexpr_eqb f (Row x_ (Pow x_ 9))
       then Ok (Row (Mul (Rat 1 2) (Pow x_ 2)) (Mul (Rat 1 10) (Pow x_ 10)))
  else Raise "not recorded".

Definition float_of_Z (z : Z) : float :=
  match z with
  | Z0 => 0%float
  | Zpos _ => PrimFloat.of_uint63 (Uint63.of_Z z)
  | Zneg _ => (- PrimFloat.of_uint63 (Uint63.of_Z (- z)))%float
  end.

Fixpoint has_var (e : sexpr) : bool :=
  match e with
  | Var _ => true
  | Add a b | Mul a b | Row a b => has_var a || has_var b
  | Pow a _ => has_var a
  | _ => false
  end.

Fixpoint has_I (e : sexpr) : bool :=
  match e with
  | ImaginaryUnit => true
  | Add a b | Mul a b | Row a b => has_I a || has_I b
  | Pow a _ => has_I a
  | _ => false
  end.

Definition cmul (a b : float * float) : float * float :=
  (fst a * fst b - snd a * snd b, fst a * snd b + snd a * fst b)%float.

Fixpoint cpow (a : float * float) (n : nat) : float * float :=
  match n with
  | O => (1, 0)%float
  | S O => a
  | S m => cmul a (cpow a m)
  end.

(** The value of an expression at one point, as a complex number. *)
Fixpoint eval (e : sexpr) (x : float) : float * float :=
  match e with
  | Num n => (float_of_Z n, 0%float)
  | Rat p q => ((float_of_Z p / float_of_Z q)%float, 0%float)
  | Flt v => (v, 0%float)
  | Var _ => (x, 0%float)
  | ImaginaryUnit => (0, 1)%float
  | Infinity => (infinity, 0%float)
  | Add a b => (fst (eval a x) + fst (eval b x), snd (eval a x) + snd (eval b x))%float
  | Mul a b => cmul (eval a x) (eval b x)
  | Pow a n => cpow (eval a x) n
  | Row _ _ => (nan, nan)%float
  end.

Fixpoint fpow (a : float) (n : nat) : float :=
  match n with
  | O => 1%float
  | S O => a
  | S m => (a * fpow a m)%float
  end.

(** The value of a real expression at one point. *)
Fixpoint eval_real (e : sexpr) (x : float) : float :=
  match e with
  | Num n => float_of_Z n
  | Rat p q => (float_of_Z p / float_of_Z q)%float
  | Flt v => v
  | Var _ => x
  | ImaginaryUnit => nan
  | Infinity => infinity
  | Add a b => (eval_real a x + eval_real b x)%float
  | Mul a b => (eval_real a x * eval_real b x)%float
  | Pow a n => fpow (eval_real a x) n
  | Row _ _ => nan
  end.

Definition eval_scalar (e : sexpr) (x : float) : scalar :=
  if has_I e then C128 (fst (eval e x)) (snd (eval e x)) else F64 (eval_real e x).

Definition is_real (e : scalar) : bool :=
  match e with
  | F64 _ => true
  | C128 _ _ => false
  end.

Definition real_part (e : scalar) : float :=
  match e with
  | F64 v => v
  | C128 re _ => re
  end.

(** The generated NumPy function on a real 1-d array: element-wise for a
    scalar expression, its bare value for a constant one, and for the
    matrix [[a, b]] the array of shape (1, 2, n) of the two rows. *)
Definition apply (e : sexpr) (arr : ndarray) : result ndarray :=
  match arr with
  | Nd1 l =>
      if negb (forallb is_real l) then Raise "not recorded"
      else
        match e with
        | Row a b =>
            if has_var a && has_var b && negb (has_I e)
            then Ok (NdN [NdN [Nd1 (map (fun v => eval_scalar a (real_part v)) l);
                               Nd1 (map (fun v => eval_scalar b (real_part v)) l)]])
            else Raise "not recorded"
        | _ =>
            if has_var e
            then Ok (Nd1 (map (fun v => eval_scalar e (real_part v)) l))
            else Ok (Nd0 (eval_scalar e 0))
        end
  | _ => Raise "not recorded"
  end.

(** [sp.integrate(f, (x, a, b))] at the recorded integrands and bounds. *)
Definition integrate_between (f : sexpr) (x : string) (a b : float) : result sexpr :=
  if negb (String.eqb x "x") then Raise "not recorded"
  else if sexpr_eqb f (Add (Mul (Num 2) x_) (Num 3))
          && PrimFloat.Leibniz.eqb a 0 && PrimFloat.Leibniz.eqb b 2
       then Ok (Flt 10)
  else if sexpr_eqb f (Num 5)
          && PrimFloat.Leibniz.eqb a 0 && PrimFloat.Leibniz.eqb b 2
       then Ok (Flt 10)
  else if sexpr_eqb f x_
          && PrimFloat.Leibniz.eqb a 0 && PrimFloat.Leibniz.eqb b infinity
       then Ok Infinity
  else Raise "not recorded".

(** [float(e)]: [float(oo)] is the floating-point infinity. *)
Definition to_float (e : sexpr) : result float :=
  match e with
  | Flt v => Ok v
  | Num n => Ok (float_of_Z n)
  | Rat p q => Ok (float_of_Z p / float_of_Z q)%float
  | Infinity => Ok infinity
  | ImaginaryUnit => Raise "Cannot convert complex to float"
  | _ => Raise "Cannot convert expression to float"
  end.

Definition str (e : sexpr) : result string :=
  if sexpr_eqb e (Mul (Rat 1 3) (Pow x_ 3)) then Ok "x**3/3"
  else if sexpr_eqb e (Add (Pow x_ 2) (Mul (Num 3) x_)) then Ok "x**2 + 3*x"
  else if sexpr_eqb e (Mul (Rat 1 2) (Pow x_ 2)) then Ok "x**2/2"
  else if sexpr_eqb e (Mul (Num 5) x_) then Ok "5*x"
  else if sexpr_eqb e (Mul ImaginaryUnit x_) then Ok "I*x"
  else if sexpr_eqb e (Row (Mul (Rat 1 2) (Pow x_ 2)) (Mul (Rat 1 10) (Pow x_ 10)))
       then Ok "Matrix([[x**2/2, x**10/10]])"
  else Raise "not recorded".

Definition latex (e : sexpr) : result string :=
  if sexpr_eqb e (Mul (Rat 1 3) (Pow x_ 3)) then Ok "\frac{x^{3}}{3}"
  else if sexpr_eqb e (Add (Pow x_ 2) (Mul (Num 3) x_)) then Ok "x^{2} + 3 x"
  else if sexpr_eqb e (Mul (Rat 1 2) (Pow x_ 2)) then Ok "\frac{x^{2}}{2}"
  else if sexpr_eqb e (Mul (Num 5) x_) then Ok "5 x"
  else if sexpr_eqb e (Mul ImaginaryUnit x_) then Ok "i x"
  else if sexpr_eqb e (Row (Mul (Rat 1 2) (Pow x_ 2)) (Mul (Rat 1 10) (Pow x_ 10)))
       then Ok "\left[\begin{matrix}\frac{x^{2}}{2} & \frac{x^{10}}{10}\end{matrix}\right]"
  else Raise "not recorded".

(** Python's [float] on the strings the examples send. *)
Definition float_of_string (s : string) : result float :=
  if String.eqb s "0" then Ok 0%float
  else if String.eqb s "1" then Ok 1%float
  else if String.eqb s "2" then Ok 2%float
  else if String.eqb s "-1" then Ok (-1)%float
  else if String.eqb s "inf" then Ok infinity
  else Raise ("could not convert string to float: '" ++ s ++ "'").

Definition libs : Libs := {|
  Sym := string;
  Expr := sexpr;
  Lam := sexpr;
  Transformation := unit;
  standard_transformations := [tt; tt; tt; tt; tt];
  implicit_multiplication_application := tt;
  sp_Symbol := Symbol;
  parse_expr := parse;
  sp_integrate := integrate;
  sp_integrate_between := integrate_between;
  sp_lambdify := fun _ e => Ok e;
  call := apply;
  sp_latex := latex;
  str_expr := str;
  float_expr := to_float;
  float_str := float_of_string;
  float_int := fun _ => Raise "not recorded";
  abs_complex := fun re im =>
    if is_infinity re || is_infinity im then infinity
    else sqrt (re * re + im * im)%float
|}.

Definition g0 : globals libs := module_globals libs.

(** A request body [{"function": f}] and one with both bounds. *)
Definition req (f : string) : result jvalue :=
  Ok (JObj [("function", JStr f)]).

Definition req_bounds (f lo hi : string) : result jvalue :=
  Ok (JObj [("function", JStr f); ("lower_limit", JStr lo); ("upper_limit", JStr hi)]).

(** The handler on the recorded instance, and the values the examples
    name. *)
Definition run (rq : result jvalue) : result http_response * globals libs :=
  calculate libs g0 rq.

Definition response_of_run (r : result http_response * globals libs) : http_response :=
  match fst r with
  | Ok resp => resp
  | Raise msg => mk_response 200 (Failure msg)
  end.

Definition payload_of_run (r : result http_response * globals libs) : payload :=
  match json_body (response_of_run r) with
  | Success p => p
  | Failure msg => mk_payload msg msg None None None None
  end.

Definition points_or_empty (o : option points) : points :=
  match o with
  | Some pts => pts
  | None => mk_points [] []
  end.

Definition stage_of (f : string) (lo hi : jvalue) (e F : sexpr) : stage libs :=
  mk_stage libs (JStr f) (JStr "x") lo hi "x" e F e.

Definition stage_2x3 : stage libs :=
  stage_of "2x+3" (JStr "0") (JStr "2")
           (Add (Mul (Num 2) x_) (Num 3)) (Add (Pow x_ 2) (Mul (Num 3) x_)).

Definition matrix_function_points : points :=
  points_or_empty
    (function_points (payload_of_run (run (req "Matrix([[x, x**9]])")))).

End Recorded.

(** * Properties *)

(** ** Floating-point classification *)

Lemma SFcompare_refl_finite (s : bool) (m : positive) (e : Z) :
  SFcompare (S754_finite s m e) (S754_finite s m e) = Some Eq.
Proof.
  simpl. rewrite Z.compare_refl.
  replace (Pos.compare_cont Eq m m) with Eq
    by (symmetry; apply Pos.compare_cont_refl).
  destruct s; reflexivity.
Qed.

Lemma is_nan_spec (v : float) :
  is_nan v = true <-> Prim2SF v = S754_nan.
Proof.
  unfold is_nan. rewrite FloatAxioms.eqb_spec. unfold SFeqb.
  destruct (Prim2SF v) as [s | s | | s m e] eqn:E.
  - simpl. split; discriminate.
  - destruct s; simpl; split; discriminate.
  - simpl. split; reflexivity.
  - rewrite SFcompare_refl_finite. simpl. split; discriminate.
Qed.

Lemma is_infinity_spec (v : float) :
  is_infinity v = true <-> exists s, Prim2SF v = S754_infinity s.
Proof.
  unfold is_infinity. rewrite FloatAxioms.eqb_spec, FloatAxioms.abs_spec. unfold SFeqb.
  change (Prim2SF infinity) with (S754_infinity false).
  destruct (Prim2SF v) as [s | s | | s m e] eqn:E; simpl.
  - split; [discriminate | intros [s' H]; discriminate].
  - split; [intros _; now exists s | reflexivity].
  - split; [discriminate | intros [s' H]; discriminate].
  - split; [discriminate | intros [s' H]; discriminate].
Qed.

Lemma clean_element_F64 (v : float) :
  (clean_element (F64 v) = PyNone /\ non_finite v)
  \/ (clean_element (F64 v) = PyFloat v /\ ~ non_finite v).
Proof.
  unfold clean_element, clean_item, py_of_scalar, non_finite.
  destruct (is_nan v) eqn:En; simpl.
  - left. split; [reflexivity | left; now apply is_nan_spec].
  - destruct (is_infinity v) eqn:Ei.
    + left. split; [reflexivity | right; now apply is_infinity_spec].
    + right. split; [reflexivity |].
      intros [H | H].
      * apply is_nan_spec in H. congruence.
      * apply is_infinity_spec in H. congruence.
Qed.

Lemma clean_array_for_json_Nd1 (l : list scalar) :
  clean_array_for_json (Nd1 l) = Ok (map clean_element l).
Proof.
  unfold clean_array_for_json. cbn [tolist iterate bind].
  now rewrite map_map.
Qed.

(** C4. The sanitizer on a sequence of machine floats returns a sequence of
    the same length; position by position the output is null exactly when
    the input is NaN or an infinity, and is the input value itself
    otherwise (same order, no rounding).  It has no failure path on such an
    input. *)
Theorem clean_array_for_json_floats (l : list float) :
  exists out,
    clean_array_for_json (Nd1 (map F64 l)) = Ok out
    /\ List.length out = List.length l
    /\ forall i v, nth_error l i = Some v ->
         (nth_error out i = Some PyNone /\ non_finite v)
         \/ (nth_error out i = Some (PyFloat v) /\ ~ non_finite v).
Proof.
  exists (map clean_element (map F64 l)).
  split; [apply clean_array_for_json_Nd1 |]. split.
  - now rewrite !length_map.
  - intros i v Hi. rewrite map_map, nth_error_map, Hi.
    change (option_map (fun a => clean_element (F64 a)) (Some v))
      with (Some (clean_element (F64 v))).
    destruct (clean_element_F64 v) as [[-> H] | [-> H]]; auto.
Qed.

(** ** The handler, stage by stage *)

Section Properties.

Context (L : Libs).

Implicit Types (g : globals L) (s : stage L) (rq : result jvalue).

Lemma bind_Ok_inv {A B : Type} (r : result A) (k : A -> result B) (b : B) :
  bind r k = Ok b -> exists a, r = Ok a /\ k a = Ok b.
Proof. destruct r as [a | m]; simpl; [eauto | discriminate]. Qed.

Ltac bind_inv H :=
  let a := fresh "a" in
  let E := fresh "E" in
  apply bind_Ok_inv in H; destruct H as (a & E & H).

Lemma jsonify_Failure (msg : string) :
  jsonify (Failure msg) = Ok (mk_response 200 (Failure msg)).
Proof. reflexivity. Qed.

Lemma jsonify_Ok_inv (b : body) (r : http_response) :
  jsonify b = Ok r -> r = mk_response 200 b /\ body_serializable b = true.
Proof.
  unfold jsonify. destruct (body_serializable b); [| discriminate].
  intros [= <-]. auto.
Qed.

Lemma calculate_try_set_up g rq s :
  set_up L g rq s -> calculate_try L g rq = finish L s.
Proof.
  intros (data & d & -> & Hf & Hv & Hl & Hu & Hx & Hd & Hp & Hi & Hlam).
  unfold calculate_try, finish, response_of. cbn [bind].
  rewrite Hf, Hv, Hl, Hu. cbn [bind]. rewrite Hx. cbn [bind].
  rewrite Hd. cbn [bind]. rewrite Hp. cbn [bind]. rewrite Hi. cbn [bind].
  rewrite Hlam. cbn [bind].
  destruct (sp_lambdify L (x s) (integral_ s)) as [il | m]; [| reflexivity].
  cbn [bind].
  destruct (definite L (function s) (x s) (f_lambdified s) (lower_limit s) (upper_limit s)).
  reflexivity.
Qed.

Lemma calculate_try_Ok_inv g rq (r : http_response) :
  calculate_try L g rq = Ok r -> exists s, set_up L g rq s /\ finish L s = Ok r.
Proof.
  intros H. unfold calculate_try in H.
  apply bind_Ok_inv in H. destruct H as (data & Erq & H).
  apply bind_Ok_inv in H. destruct H as (fs & Ef & H).
  apply bind_Ok_inv in H. destruct H as (vs & Ev & H).
  apply bind_Ok_inv in H. destruct H as (lo & El & H).
  apply bind_Ok_inv in H. destruct H as (hi & Eh & H).
  apply bind_Ok_inv in H. destruct H as (x0 & Ex & H).
  apply bind_Ok_inv in H. destruct H as (d & Ed & H).
  apply bind_Ok_inv in H. destruct H as (f & Ep & H).
  apply bind_Ok_inv in H. destruct H as (F & Ei & H).
  apply bind_Ok_inv in H. destruct H as (fl & Elam & H).
  set (s := mk_stage L fs vs lo hi x0 f F fl).
  assert (Hs : set_up L g rq s) by (exists data, d; cbn; repeat split; assumption).
  exists s. split; [exact Hs |].
  rewrite <- (calculate_try_set_up g rq s Hs).
  unfold calculate_try. rewrite Erq. cbn [bind].
  rewrite Ef, Ev, El, Eh. cbn [bind]. rewrite Ex. cbn [bind].
  rewrite Ed. cbn [bind]. rewrite Ep. cbn [bind]. rewrite Ei. cbn [bind].
  rewrite Elam. cbn [bind]. exact H.
Qed.

Lemma finish_Ok_inv s (r : http_response) :
  finish L s = Ok r ->
  exists il tex txt,
    sp_lambdify L (x s) (integral_ s) = Ok il
    /\ sp_latex L (integral_ s) = Ok tex
    /\ str_expr L (integral_ s) = Ok txt
    /\ body_serializable (Success (response_of L s il tex txt)) = true
    /\ r = mk_response 200 (Success (response_of L s il tex txt)).
Proof.
  intros H. unfold finish in H.
  apply bind_Ok_inv in H. destruct H as (il & Eil & H).
  apply bind_Ok_inv in H. destruct H as (tex & Etex & H).
  apply bind_Ok_inv in H. destruct H as (txt & Etxt & H).
  apply jsonify_Ok_inv in H. destruct H as [-> Hser].
  exists il, tex, txt. auto.
Qed.

Lemma calculate_Raise g rq (msg : string) :
  calculate_try L g rq = Raise msg ->
  calculate L g rq = (Ok (mk_response 200 (Failure msg)), g).
Proof. intros E. unfold calculate. now rewrite E. Qed.

(** A success response comes from a set-up that went through and from the
    remaining steps going through. *)
Lemma success_inv g rq (resp : http_response) (p : payload) :
  fst (calculate L g rq) = Ok resp ->
  json_body resp = Success p ->
  exists s il tex txt,
    set_up L g rq s
    /\ sp_lambdify L (x s) (integral_ s) = Ok il
    /\ sp_latex L (integral_ s) = Ok tex
    /\ str_expr L (integral_ s) = Ok txt
    /\ body_serializable (Success p) = true
    /\ p = response_of L s il tex txt.
Proof.
  unfold calculate. destruct (calculate_try L g rq) as [r | msg] eqn:E; cbn [fst].
  - intros [= ->] Hb.
    apply calculate_try_Ok_inv in E. destruct E as (s & Hs & E).
    apply finish_Ok_inv in E.
    destruct E as (il & tex & txt & Eil & Etex & Etxt & Hser & ->).
    cbn in Hb. injection Hb as <-.
    exists s, il, tex, txt. repeat split; assumption.
  - rewrite jsonify_Failure. intros [= <-]. discriminate.
Qed.

(** With a set-up [s], the response is the one [finish] builds or the
    error body of what it raised. *)
Lemma calculate_set_up g rq s :
  set_up L g rq s ->
  fst (calculate L g rq)
  = match finish L s with
    | Ok r => Ok r
    | Raise msg => Ok (mk_response 200 (Failure msg))
    end.
Proof.
  intros Hs. unfold calculate. rewrite (calculate_try_set_up g rq s Hs).
  destruct (finish L s); reflexivity.
Qed.

(** ** Series *)

Lemma series_or_None_Some (f : Lam L) (xv : ndarray) (pts : points) :
  series_or_None L f xv = Some pts <-> series L f xv = Ok pts.
Proof.
  unfold series_or_None. destruct (series L f xv) as [q | m]; cbn.
  - split; intros [= ->]; reflexivity.
  - split; discriminate.
Qed.

Lemma series_or_None_None (f : Lam L) (xv : ndarray) :
  series_or_None L f xv = None <-> exists m, series L f xv = Raise m.
Proof.
  unfold series_or_None. destruct (series L f xv) as [q | m]; cbn.
  - split; [discriminate | intros [m [=]]].
  - split; eauto.
Qed.

Lemma series_Ok_inv (f : Lam L) (X : list scalar) (pts : points) :
  series L f (Nd1 X) = Ok pts ->
  exists yv items,
    call L f (Nd1 X) = Ok yv
    /\ tolist (where_too_large_nan L yv) = PyList items
    /\ xs pts = map clean_element X
    /\ ys pts = map clean_item items.
Proof.
  unfold series. intros H.
  apply bind_Ok_inv in H. destruct H as (yv & Ecall & H).
  rewrite clean_array_for_json_Nd1 in H. cbn [bind] in H.
  unfold clean_array_for_json in H.
  destruct (tolist (where_too_large_nan L yv)) as [| v | re im | items] eqn:Et;
    try discriminate H.
  cbn in H. injection H as <-. exists yv, items. auto.
Qed.


(** ** The definite block (lines 142-166) *)

Lemma definite_evaluates s (a b v : float) (e : Expr L) :
  py_float L (lower_limit s) = Ok a ->
  py_float L (upper_limit s) = Ok b ->
  sp_integrate_between L (function s) (x s) a b = Ok e ->
  float_expr L e = Ok v ->
  definite L (function s) (x s) (f_lambdified s) (lower_limit s) (upper_limit s)
  = (Some v, series_or_None L (f_lambdified s) (np_linspace a b 100)).
Proof.
  intros Ha Hb He Hv. unfold definite.
  assert (is_None (lower_limit s) = false) as ->
    by (destruct (lower_limit s); try reflexivity; discriminate Ha).
  assert (is_None (upper_limit s) = false) as ->
    by (destruct (upper_limit s); try reflexivity; discriminate Hb).
  cbn [orb]. rewrite Ha. cbn [bind]. rewrite Hb. cbn [bind].
  rewrite He. cbn [bind]. rewrite Hv. reflexivity.
Qed.

Lemma definite_area_inv s (pts : points) :
  snd (definite L (function s) (x s) (f_lambdified s) (lower_limit s) (upper_limit s))
  = Some pts ->
  exists a b, series L (f_lambdified s) (np_linspace a b 100) = Ok pts.
Proof.
  unfold definite.
  destruct (is_None (lower_limit s) || is_None (upper_limit s)); [discriminate |].
  destruct (py_float L (lower_limit s)) as [a | m]; [| discriminate]. cbn [bind].
  destruct (py_float L (upper_limit s)) as [b | m]; [| discriminate]. cbn [bind].
  destruct (sp_integrate_between L (function s) (x s) a b) as [e | m];
    [| discriminate]. cbn [bind].
  destruct (float_expr L e) as [v | m]; [| discriminate]. cbn [bind snd].
  intros H. apply series_or_None_Some in H. eauto.
Qed.

(** ** Clamping and sampling *)

(** The default grid: 200 finite points from -10 to 10, [20/199] apart. *)
Lemma x_vals_grid :
  x_vals = Nd1 (map F64 (linspace (-10) 10 200))
  /\ List.length (linspace (-10) 10 200) = 200%nat
  /\ hd_error (linspace (-10) 10 200) = Some (-10)%float
  /\ last (linspace (-10) 10 200) 0%float = 10%float
  /\ evenly_spaced (20 / 199) 0x1p-46 (linspace (-10) 10 200) = true
  /\ map clean_element (map F64 (linspace (-10) 10 200))
     = map PyFloat (linspace (-10) 10 200).
Proof. repeat split; vm_compute; reflexivity. Qed.

(** C7. When constructing the symbol, parsing the expression or computing
    the indefinite integral raises, the handler answers with status 200 and
    the body [{success: false, error: msg}], [msg] being the text of the
    exception raised. *)
Theorem set_up_failure_response g (fields : list (string * jvalue)) (msg : string) :
  sp_Symbol L (dict_get fields "variable" (JStr "x")) = Raise msg
  \/ (exists x0 d,
        sp_Symbol L (dict_get fields "variable" (JStr "x")) = Ok x0
        /\ local_dict L (dict_get fields "variable" (JStr "x")) x0 = Ok d
        /\ parse_expr L (dict_get fields "function" (JStr "")) d (transformations g)
           = Raise msg)
  \/ (exists x0 d f,
        sp_Symbol L (dict_get fields "variable" (JStr "x")) = Ok x0
        /\ local_dict L (dict_get fields "variable" (JStr "x")) x0 = Ok d
        /\ parse_expr L (dict_get fields "function" (JStr "")) d (transformations g)
           = Ok f
        /\ sp_integrate L f x0 = Raise msg) ->
  calculate L g (Ok (JObj fields)) = (Ok (mk_response 200 (Failure msg)), g)
  /\ success (Failure msg) = false.
Proof.
  intros H. split; [| reflexivity]. apply calculate_Raise.
  unfold calculate_try. cbn [bind get].
  destruct H as [H | [(x0 & d & Hx & Hd & H) | (x0 & d & f & Hx & Hd & Hp & H)]].
  - rewrite H. reflexivity.
  - rewrite Hx. cbn [bind]. rewrite Hd. cbn [bind]. rewrite H. reflexivity.
  - rewrite Hx. cbn [bind]. rewrite Hd. cbn [bind]. rewrite Hp. cbn [bind].
    rewrite H. reflexivity.
Qed.

(** C10. A body that omits [function], or gives it as the empty string,
    makes the expression text the empty string; when the parser raises on
    the empty string (with a message that is not empty, as the symbol
    constructor's are), the handler answers status 200 with success false
    and an error string that is not empty. *)
Theorem empty_function_fails g (fields : list (string * jvalue)) :
  lookup "function" fields = None \/ lookup "function" fields = Some (JStr "") ->
  (forall d t, exists m, parse_expr L (JStr "") d t = Raise m /\ m <> "") ->
  (forall v m, sp_Symbol L v = Raise m -> m <> "") ->
  dict_get fields "function" (JStr "") = JStr ""
  /\ exists m,
       calculate L g (Ok (JObj fields)) = (Ok (mk_response 200 (Failure m)), g)
       /\ success (Failure m) = false
       /\ m <> "".
Proof.
  intros Hf Hparse Hsym.
  assert (Ef : dict_get fields "function" (JStr "") = JStr "")
    by (unfold dict_get; destruct Hf as [-> | ->]; reflexivity).
  split; [exact Ef |].
  assert (Hm : exists m, calculate_try L g (Ok (JObj fields)) = Raise m /\ m <> "").
  { unfold calculate_try. cbn [bind get]. rewrite Ef.
    set (v := dict_get fields "variable" (JStr "x")).
    destruct (sp_Symbol L v) as [x0 | m] eqn:Ex; cbn [bind].
    - unfold local_dict. destruct (hashable v); cbn [bind].
      + destruct (Hparse [(v, x0)] (transformations g)) as (m & -> & Hne).
        exists m. auto.
      + eexists. split; [reflexivity | discriminate].
    - exists m. split; [reflexivity | now apply (Hsym v)]. }
  destruct Hm as (m & Em & Hne).
  exists m. split; [now apply calculate_Raise |]. auto.
Qed.

(** ** A success response read from its set-up *)

Lemma success_of_set_up g rq s (resp : http_response) (p : payload) :
  set_up L g rq s ->
  fst (calculate L g rq) = Ok resp ->
  json_body resp = Success p ->
  exists il tex txt,
    sp_lambdify L (x s) (integral_ s) = Ok il
    /\ sp_latex L (integral_ s) = Ok tex
    /\ str_expr L (integral_ s) = Ok txt
    /\ body_serializable (Success p) = true
    /\ p = response_of L s il tex txt.
Proof.
  intros Hs Hr Hb. rewrite (calculate_set_up g rq s Hs) in Hr.
  destruct (finish L s) as [r | m] eqn:E.
  - injection Hr as ->. apply finish_Ok_inv in E.
    destruct E as (il & tex & txt & Eil & Etex & Etxt & Hser & ->).
    cbn in Hb. injection Hb as <-.
    exists il, tex, txt. repeat split; assumption.
  - injection Hr as <-. discriminate Hb.
Qed.

End Properties.

(** * The recorded instance: examples *)

Import Recorded.

Lemma set_up_req (f : string) (e F : sexpr) :
  parse (JStr f) [(JStr "x", "x")] (transformations g0) = Ok e ->
  integrate e "x" = Ok F ->
  set_up libs g0 (req f) (stage_of f JNull JNull e F).
Proof.
  intros Hp Hi. exists (JObj [("function", JStr f)]), [(JStr "x", "x")].
  repeat split; assumption.
Qed.

Lemma set_up_req_bounds (f lo hi : string) (e F : sexpr) :
  parse (JStr f) [(JStr "x", "x")] (transformations g0) = Ok e ->
  integrate e "x" = Ok F ->
  set_up libs g0 (req_bounds f lo hi) (stage_of f (JStr lo) (JStr hi) e F).
Proof.
  intros Hp Hi.
  exists (JObj [("function", JStr f); ("lower_limit", JStr lo);
                ("upper_limit", JStr hi)]), [(JStr "x", "x")].
  repeat split; assumption.
Qed.

(** *** A malformed expression *)

Lemma set_up_failure_response_witness :
  run (req "x**")
  = (Ok (mk_response 200 (Failure "invalid syntax (<string>, line 1)")), g0)
  /\ "invalid syntax (<string>, line 1)" <> "".
Proof.
  split; [| discriminate].
  apply (set_up_failure_response libs g0 [("function", JStr "x**")]).
  right. left. exists "x", [(JStr "x", "x")].
  repeat split; reflexivity.
Defined.

(** *** No [function] field *)

Lemma recorded_parse_empty (d : list (jvalue * string)) (t : list unit) :
  exists m, parse (JStr "") d t = Raise m /\ m <> "".
Proof.
  unfold parse. destruct (dict_is_x d && Nat.eqb (List.length t) 6); cbn;
    eexists; (split; [reflexivity | discriminate]).
Qed.

Lemma recorded_Symbol_message (v : jvalue) (m : string) :
  Symbol v = Raise m -> m <> "".
Proof. destruct v; cbn; intros [= <-]; discriminate. Qed.

Lemma empty_function_fails_witness :
  lookup "function" [] = None
  /\ exists m,
       run (Ok (JObj [])) = (Ok (mk_response 200 (Failure m)), g0)
       /\ success (Failure m) = false
       /\ m <> "".
Proof.
  split; [reflexivity |].
  apply (empty_function_fails libs g0 []);
    [left; reflexivity | exact recorded_parse_empty | exact recorded_Symbol_message].
Defined.

(** *** The definite block on an infinite result *)

(** C1. The code at function [x] with bounds ["0"] and ["inf"]: the bounds
    convert, SymPy's result is the symbolic infinity, [float()] turns it
    into the floating-point infinity, and the response carries it as
    [definite_value] together with an area series, where the claim wants
    both fields null. *)
Lemma infinite_definite_value_is_returned :
  float_of_string "0" = Ok 0%float
  /\ float_of_string "inf" = Ok infinity
  /\ integrate_between x_ "x" 0 infinity = Ok Infinity
  /\ exists p,
       fst (run (req_bounds "x" "0" "inf")) = Ok (mk_response 200 (Success p))
       /\ definite_value p = Some infinity
       /\ area_points p <> None.
Proof.
  repeat (split; [vm_compute; reflexivity |]).
  exists (payload_of_run (run (req_bounds "x" "0" "inf"))).
  split; [vm_compute; reflexivity |]. split; [vm_compute; reflexivity |].
  vm_compute. discriminate.
Qed.

(** *** A constant integrand *)

(** C2. The code at function [5] with bounds ["0"] and ["2"]: the definite
    integral evaluates to 10.0, and the area series is dropped because the
    lambdified constant returns a bare number on which the sanitizer
    raises, where the claim wants 100 points. *)
Lemma constant_integrand_has_no_area :
  float_of_string "0" = Ok 0%float
  /\ float_of_string "2" = Ok 2%float
  /\ integrate_between (Num 5) "x" 0 2 = Ok (Flt 10)
  /\ to_float (Flt 10) = Ok 10%float
  /\ apply (Num 5) (np_linspace 0 2 100) = Ok (Nd0 (F64 5))
  /\ exists p,
       fst (run (req_bounds "5" "0" "2")) = Ok (mk_response 200 (Success p))
       /\ definite_value p = Some 10%float
       /\ area_points p = None.
Proof.
  repeat (split; [vm_compute; reflexivity |]).
  exists (payload_of_run (run (req_bounds "5" "0" "2"))).
  repeat split; vm_compute; reflexivity.
Qed.

(** *** A series that raises beside a complex one *)

(** C6. The code at function [I]: the function series raises (a bare
    complex number is not iterable), the integral [I*x] evaluates to a
    complex array which the sanitizer lets through, and the JSON encoder
    rejects it: the response is success false, where the claim wants
    success true. *)
Lemma complex_integral_fails_request :
  set_up libs g0 (req "I")
         (stage_of "I" JNull JNull ImaginaryUnit (Mul ImaginaryUnit x_))
  /\ series libs ImaginaryUnit x_vals = Raise "'complex' object is not iterable"
  /\ fst (run (req "I"))
     = Ok (mk_response 200
             (Failure "Object of type complex is not JSON serializable"))
  /\ success (Failure "Object of type complex is not JSON serializable") = false.
Proof.
  split; [apply set_up_req; reflexivity |].
  repeat split; vm_compute; reflexivity.
Qed.

(** * Further properties of the handler *)

(** ** The clamp and the sanitizer on one real sample *)




Section More.

Context (L : Libs).

Implicit Types (g : globals L) (s : stage L) (rq : result jvalue).


(** ** The sanitizer on any array *)

(** ** When a series is dropped *)

(** X8. A series is dropped (its field is null) exactly when the call of
    the lambdified function raises or returns a bare scalar; an array
    result, whatever its values, always gives a series. *)
Theorem series_dropped_iff (f : Lam L) (X : list scalar) :
  series_or_None L f (Nd1 X) = None
  <-> (exists m, call L f (Nd1 X) = Raise m)
      \/ (exists e, call L f (Nd1 X) = Ok (Nd0 e)).
Proof.
  unfold series_or_None, series.
  destruct (call L f (Nd1 X)) as [[e | y | rows] | m] eqn:Ecall; cbn [bind].
  - split; [intros _; right; eauto |]. intros _.
    cbn [where_too_large_nan]. unfold clamp.
    destruct e as [v | re im]; destruct (too_large L _); reflexivity.
  - cbn. split; [discriminate |].
    intros [[m H] | [e H]]; discriminate H.
  - cbn. split; [discriminate |].
    intros [[m H] | [e H]]; discriminate H.
  - cbn. split; [intros _; left; eauto | reflexivity].
Qed.



(** ** The definite block *)

(** X5. In a success response [definite_value] is a number [v] exactly
    when both bounds convert with [float()], the definite integration
    returns, and [float()] of its result is [v]. *)
Theorem definite_value_present_iff g rq s (resp : http_response) (p : payload)
    (v : float) :
  set_up L g rq s ->
  fst (calculate L g rq) = Ok resp ->
  json_body resp = Success p ->
  definite_value p = Some v
  <-> exists a b e,
        py_float L (lower_limit s) = Ok a
        /\ py_float L (upper_limit s) = Ok b
        /\ sp_integrate_between L (function s) (x s) a b = Ok e
        /\ float_expr L e = Ok v.
Proof.
  intros Hs Hr Hb.
  destruct (success_of_set_up L g rq s resp p Hs Hr Hb)
    as (il & tex & txt & _ & _ & _ & _ & ->).
  cbn [response_of definite_value]. split.
  - unfold definite.
    destruct (is_None (lower_limit s) || is_None (upper_limit s));
      [discriminate |].
    destruct (py_float L (lower_limit s)) as [a | m]; [| discriminate].
    cbn [bind].
    destruct (py_float L (upper_limit s)) as [b | m]; [| discriminate].
    cbn [bind].
    destruct (sp_integrate_between L (function s) (x s) a b) as [e | m] eqn:Ee;
      [| discriminate]. cbn [bind].
    destruct (float_expr L e) as [w | m] eqn:Ew; [| discriminate].
    cbn [bind fst]. intros [= ->]. exists a, b, e. auto.
  - intros (a & b & e & Ha & Hbb & He & Hv).
    now rewrite (definite_evaluates L s a b v e Ha Hbb He Hv).
Qed.

(** X6. A success response never carries an area series without a
    definite value. *)
Theorem area_requires_definite_value g rq (resp : http_response) (p : payload)
    (pts : points) :
  fst (calculate L g rq) = Ok resp ->
  json_body resp = Success p ->
  area_points p = Some pts ->
  exists v, definite_value p = Some v.
Proof.
  intros Hr Hb.
  destruct (success_inv L g rq resp p Hr Hb)
    as (s & il & tex & txt & _ & _ & _ & _ & _ & ->).
  cbn [response_of area_points definite_value].
  destruct (definite L (function s) (x s) (f_lambdified s) (lower_limit s)
                     (upper_limit s)) as [dv ap] eqn:E.
  cbn [fst snd]. intros ->. unfold definite in E.
  destruct (is_None (lower_limit s) || is_None (upper_limit s));
    [discriminate E |].
  destruct (py_float L (lower_limit s)) as [a | m]; [| discriminate E].
  cbn [bind] in E.
  destruct (py_float L (upper_limit s)) as [b | m]; [| discriminate E].
  cbn [bind] in E.
  destruct (sp_integrate_between L (function s) (x s) a b) as [e | m];
    [| discriminate E]. cbn [bind] in E.
  destruct (float_expr L e) as [w | m]; [| discriminate E].
  cbn [bind] in E. injection E as <- _. eauto.
Qed.

(** ** The request body *)

(** X2. A request whose JSON cannot be read, or whose body is not a JSON
    object (null, a number, a string, an array), is answered with success
    false: the error is the text of the exception of [request.json],
    respectively the [AttributeError] of the first [data.get]. *)
Theorem non_object_body_fails g :
  (forall msg,
      calculate L g (Raise msg) = (Ok (mk_response 200 (Failure msg)), g))
  /\ (forall data,
        (forall fields, data <> JObj fields) ->
        calculate L g (Ok data)
        = (Ok (mk_response 200
                 (Failure ("'" ++ type_name data
                               ++ "' object has no attribute 'get'"))), g)).
Proof.
  split.
  - intros msg. reflexivity.
  - intros data Hd. destruct data; try reflexivity.
    now destruct (Hd fields).
Qed.

(** X3. A [variable] field that is a JSON array or object never gives a
    success response: either [sp.Symbol] rejects it, or building
    [local_dict] raises on the unhashable key, before anything is parsed. *)
Theorem unhashable_variable_fails g (fields : list (string * jvalue)) :
  hashable (dict_get fields "variable" (JStr "x")) = false ->
  exists m,
    calculate L g (Ok (JObj fields)) = (Ok (mk_response 200 (Failure m)), g)
    /\ (sp_Symbol L (dict_get fields "variable" (JStr "x")) = Raise m
        \/ m = "unhashable type: '"
                 ++ type_name (dict_get fields "variable" (JStr "x")) ++ "'").
Proof.
  intros Hh.
  destruct (sp_Symbol L (dict_get fields "variable" (JStr "x"))) as [x0 | m] eqn:Ex.
  - eexists. split; [| right; reflexivity].
    apply calculate_Raise. unfold calculate_try. cbn [bind get].
    rewrite Ex. cbn [bind]. unfold local_dict. rewrite Hh. reflexivity.
  - exists m. split; [| left; reflexivity].
    apply calculate_Raise. unfold calculate_try. cbn [bind get].
    rewrite Ex. reflexivity.
Qed.

(** X4. The response depends on the body only through the four fields
    [function], [variable], [lower_limit], [upper_limit], each read with
    its default: two bodies that agree on them (an omitted [variable]
    counting as ["x"], an omitted bound as null, any other key ignored)
    get the same response. *)
Theorem response_depends_on_four_fields g (f1 f2 : list (string * jvalue)) :
  dict_get f1 "function" (JStr "") = dict_get f2 "function" (JStr "") ->
  dict_get f1 "variable" (JStr "x") = dict_get f2 "variable" (JStr "x") ->
  dict_get f1 "lower_limit" JNull = dict_get f2 "lower_limit" JNull ->
  dict_get f1 "upper_limit" JNull = dict_get f2 "upper_limit" JNull ->
  calculate L g (Ok (JObj f1)) = calculate L g (Ok (JObj f2)).
Proof.
  intros Hf Hv Hl Hu. unfold calculate, calculate_try. cbn [bind get].
  now rewrite Hf, Hv, Hl, Hu.
Qed.

(** X7. A bound supplied without the other one is ignored altogether: it
    is not even converted, and the response is the one of the same request
    with no bounds. *)
Theorem unpaired_bound_is_ignored g (f1 f2 : list (string * jvalue)) :
  dict_get f1 "function" (JStr "") = dict_get f2 "function" (JStr "") ->
  dict_get f1 "variable" (JStr "x") = dict_get f2 "variable" (JStr "x") ->
  is_None (dict_get f1 "lower_limit" JNull)
    || is_None (dict_get f1 "upper_limit" JNull) = true ->
  dict_get f2 "lower_limit" JNull = JNull ->
  dict_get f2 "upper_limit" JNull = JNull ->
  calculate L g (Ok (JObj f1)) = calculate L g (Ok (JObj f2)).
Proof.
  intros Hf Hv Hnone Hl Hu.
  assert (E : calculate_try L g (Ok (JObj f1)) = calculate_try L g (Ok (JObj f2))).
  { unfold calculate_try. cbn [bind get]. rewrite Hf, Hv, Hl, Hu.
    destruct (sp_Symbol L _) as [x0 | m]; [| reflexivity]. cbn [bind].
    destruct (local_dict L _ x0) as [d | m]; [| reflexivity]. cbn [bind].
    destruct (parse_expr L _ d _) as [f | m]; [| reflexivity]. cbn [bind].
    destruct (sp_integrate L f x0) as [F | m]; [| reflexivity]. cbn [bind].
    destruct (sp_lambdify L x0 f) as [fl | m]; [| reflexivity]. cbn [bind].
    destruct (sp_lambdify L x0 F) as [il | m]; [| reflexivity]. cbn [bind].
    unfold definite. rewrite Hnone. reflexivity. }
  unfold calculate. now rewrite E.
Qed.

End More.

(** ** Examples on the recorded instance *)

(** X3: a list as [variable]. *)
Lemma unhashable_variable_fails_witness :
  exists m,
    run (Ok (JObj [("function", JStr "x"); ("variable", JArr [])]))
    = (Ok (mk_response 200 (Failure m)), g0)
    /\ m = "name should be a string, not <class 'list'>".
Proof.
  destruct (unhashable_variable_fails libs g0
              [("function", JStr "x"); ("variable", JArr [])] eq_refl)
    as (m & Hr & Hm).
  exists m. split; [exact Hr |].
  destruct Hm as [Hm | Hm]; [| rewrite Hm in Hr; discriminate Hr].
  injection Hm as <-. reflexivity.
Defined.

(** X4: an explicit default and a key the handler does not read. *)
Lemma response_depends_on_four_fields_witness :
  run (req "x**2")
  = run (Ok (JObj [("color", JStr "red"); ("function", JStr "x**2");
                   ("variable", JStr "x"); ("lower_limit", JNull)])).
Proof.
  apply (response_depends_on_four_fields libs g0); reflexivity.
Defined.

(** X7: a lower bound alone. *)
Lemma unpaired_bound_is_ignored_witness :
  run (Ok (JObj [("function", JStr "x**2"); ("lower_limit", JStr "0")]))
  = run (req "x**2").
Proof.
  apply (unpaired_bound_is_ignored libs g0); reflexivity.
Defined.

(** X5, X6: [2x+3] over [0, 2]. *)
Lemma definite_value_present_iff_witness :
  definite_value (payload_of_run (run (req_bounds "2x+3" "0" "2"))) = Some 10%float
  <-> exists a b e,
        py_float libs (JStr "0") = Ok a
        /\ py_float libs (JStr "2") = Ok b
        /\ integrate_between (Add (Mul (Num 2) x_) (Num 3)) "x" a b = Ok e
        /\ to_float e = Ok 10%float.
Proof.
  apply (definite_value_present_iff libs g0 (req_bounds "2x+3" "0" "2") stage_2x3
           (response_of_run (run (req_bounds "2x+3" "0" "2")))).
  - apply set_up_req_bounds; reflexivity.
  - vm_compute. reflexivity.
  - vm_compute. reflexivity.
Defined.

Lemma area_requires_definite_value_witness :
  exists v,
    definite_value (payload_of_run (run (req_bounds "2x+3" "0" "2"))) = Some v.
Proof.
  apply (area_requires_definite_value libs g0 (req_bounds "2x+3" "0" "2")
           (response_of_run (run (req_bounds "2x+3" "0" "2")))
           (payload_of_run (run (req_bounds "2x+3" "0" "2")))
           (points_or_empty
              (area_points (payload_of_run (run (req_bounds "2x+3" "0" "2"))))));
    vm_compute; reflexivity.
Defined.


(** * Results of any shape *)

Lemma ndarray_nested_ind (P : ndarray -> Prop) :
  (forall e, P (Nd0 e)) ->
  (forall l, P (Nd1 l)) ->
  (forall rows, Forall P rows -> P (NdN rows)) ->
  forall arr, P arr.
Proof.
  intros H0 H1 HN. fix IH 1. intros [e | l | rows].
  - apply H0.
  - apply H1.
  - apply HN. induction rows as [| r rows IHrows]; constructor.
    + apply IH.
    + exact IHrows.
Qed.

Lemma clean_item_serializable (v : pyval) :
  serializable (clean_item v) = serializable v.
Proof.
  destruct v as [| f | re im | items]; try reflexivity.
  cbn [clean_item]. destruct (is_nan f || is_infinity f); reflexivity.
Qed.

Lemma clean_item_within_range (v : pyval) :
  within_range v = true -> within_range (clean_item v) = true.
Proof.
  destruct v as [| f | re im | items]; try (intros H; exact H).
  cbn [clean_item]. destruct (is_nan f || is_infinity f); [reflexivity |].
  intros H; exact H.
Qed.

Lemma clean_item_float_finite (v : pyval) (w : float) :
  clean_item v = PyFloat w -> ~ non_finite w.
Proof.
  destruct v as [| f | re im | items]; try discriminate.
  intros H. destruct (clean_element_F64 f) as [[E _] | [E Hfin]];
    unfold clean_element, py_of_scalar in E; rewrite E in H.
  - discriminate H.
  - injection H as <-. exact Hfin.
Qed.

Section Shapes.

Context (L : Libs).

Implicit Types (g : globals L) (s : stage L) (rq : result jvalue).

Lemma clamp_within_range (e : scalar) :
  serializable (py_of_scalar (clamp L e)) = true ->
  within_range (py_of_scalar (clamp L e)) = true.
Proof.
  destruct e as [v | re im]; unfold clamp, too_large.
  - intros _. destruct (1e6 <? abs v)%float eqn:E; cbn.
    + reflexivity.
    + now rewrite E.
  - destruct (1e6 <? abs_complex L re im)%float; discriminate.
Qed.

(** After the clamp, whatever the shape, an array without complex entries
    holds no float above 1e6 in magnitude. *)
Lemma where_within_range (arr : ndarray) :
  serializable (tolist (where_too_large_nan L arr)) = true ->
  within_range (tolist (where_too_large_nan L arr)) = true.
Proof.
  induction arr as [e | l | rows IH] using ndarray_nested_ind;
    cbn [where_too_large_nan tolist serializable within_range].
  - apply clamp_within_range.
  - induction l as [| e l IHl]; cbn [map forallb]; [reflexivity |].
    intros H. apply andb_true_iff in H. destruct H as [He Hl].
    now rewrite (clamp_within_range e He), (IHl Hl).
  - induction IH as [| r rows Hr _ IHrows]; cbn [map forallb]; [reflexivity |].
    intros H. apply andb_true_iff in H. destruct H as [H1 H2].
    now rewrite (Hr H1), (IHrows H2).
Qed.

Lemma serializable_entries (l : list scalar) :
  forallb serializable (map clean_element l) = true ->
  Forall (fun e => e = PyNone \/ exists v, e = PyFloat v /\ ~ non_finite v)
         (map clean_element l).
Proof.
  induction l as [| e l IH]; cbn [map forallb]; [constructor |].
  intros H. apply andb_true_iff in H. destruct H as [He Hl].
  constructor; [| exact (IH Hl)].
  destruct e as [w | re im]; [| discriminate He].
  destruct (clean_element_F64 w) as [[-> _] | [-> Hfin]]; [now left |].
  right. now exists w.
Qed.

(** Every series of a success response comes from one run of the [try]
    block of a series, and both of its lists passed the encoder. *)
Lemma returned_series_inv g rq (resp : http_response) (p : payload) (pts : points) :
  fst (calculate L g rq) = Ok resp ->
  json_body resp = Success p ->
  function_points p = Some pts \/ integral_points p = Some pts
    \/ area_points p = Some pts ->
  exists (f : Lam L) (X : list scalar),
    series L f (Nd1 X) = Ok pts
    /\ forallb serializable (xs pts) = true
    /\ forallb serializable (ys pts) = true.
Proof.
  intros Hr Hb Hpts.
  destruct (success_inv L g rq resp p Hr Hb)
    as (s & il & tex & txt & Hs & Eil & Etex & Etxt & Hser & ->).
  cbn [body_serializable response_of function_points integral_points area_points]
    in Hser, Hpts.
  apply andb_true_iff in Hser. destruct Hser as [Hser Hsa].
  apply andb_true_iff in Hser. destruct Hser as [Hsf Hsi].
  destruct Hpts as [H | [H | H]].
  - rewrite H in Hsf. cbn in Hsf. apply andb_true_iff in Hsf.
    apply series_or_None_Some in H. unfold x_vals, np_linspace in H.
    exists (f_lambdified s). eexists. split; [exact H | exact Hsf].
  - rewrite H in Hsi. cbn in Hsi. apply andb_true_iff in Hsi.
    apply series_or_None_Some in H. unfold x_vals, np_linspace in H.
    exists il. eexists. split; [exact H | exact Hsi].
  - rewrite H in Hsa. cbn in Hsa. apply andb_true_iff in Hsa.
    apply definite_area_inv in H. destruct H as (a & b & H).
    unfold np_linspace in H.
    exists (f_lambdified s). eexists. split; [exact H | exact Hsa].
Qed.

(** X12. In a success response no float at any depth of the y of a series
    (function, integral or area) has a magnitude above 1e6 or is infinite,
    and no complex number occurs in it; every float that is an entry of x
    or an entry of y itself is finite.  A NaN can remain only inside a
    nested list, as a result of two or more dimensions gives. *)
Theorem returned_numbers_within_range g rq (resp : http_response) (p : payload)
    (pts : points) :
  fst (calculate L g rq) = Ok resp ->
  json_body resp = Success p ->
  function_points p = Some pts \/ integral_points p = Some pts
    \/ area_points p = Some pts ->
  forallb within_range (ys pts) = true
  /\ Forall (fun e => forall v, e = PyFloat v -> ~ non_finite v) (ys pts)
  /\ Forall (fun e => e = PyNone \/ exists v, e = PyFloat v /\ ~ non_finite v)
            (xs pts).
Proof.
  intros Hr Hb Hpts.
  destruct (returned_series_inv g rq resp p pts Hr Hb Hpts)
    as (f & X & Hseries & Hx & Hy).
  apply series_Ok_inv in Hseries.
  destruct Hseries as (yv & items & _ & Et & Ex & Ey).
  rewrite Ex in Hx |- *. rewrite Ey in Hy |- *.
  assert (Hitems : forallb serializable items = true).
  { rewrite forallb_forall in Hy |- *. intros v Hv.
    rewrite <- clean_item_serializable. apply Hy. now apply in_map. }
  assert (Hw : forallb within_range items = true).
  { pose proof (where_within_range yv) as H. rewrite Et in H. now apply H. }
  split; [| split].
  - rewrite forallb_forall in Hw |- *. intros v Hv.
    apply in_map_iff in Hv. destruct Hv as (u & <- & Hu).
    apply clean_item_within_range. now apply Hw.
  - apply Forall_forall. intros e He v ->.
    apply in_map_iff in He. destruct He as (u & Hu & _).
    exact (clean_item_float_finite u v Hu).
  - now apply serializable_entries.
Qed.

(** X13. Whenever a success response carries the function series or the
    integral series, its x is the list of the 200 points of
    [np.linspace(-10, 10, 200)], whatever the shape or length of y: the
    first is -10, the last is 10, consecutive points are [20/199] apart. *)
Theorem series_x_is_default_grid g rq (resp : http_response) (p : payload)
    (pts : points) :
  fst (calculate L g rq) = Ok resp ->
  json_body resp = Success p ->
  function_points p = Some pts \/ integral_points p = Some pts ->
  xs pts = map PyFloat (linspace (-10) 10 200)
  /\ List.length (xs pts) = 200%nat
  /\ hd_error (xs pts) = Some (PyFloat (-10))
  /\ last (xs pts) PyNone = PyFloat 10
  /\ evenly_spaced (20 / 199) 0x1p-46 (linspace (-10) 10 200) = true.
Proof.
  intros Hr Hb Hpts.
  destruct x_vals_grid as (Hx & _ & _ & _ & Heven & Hclean).
  destruct (success_inv L g rq resp p Hr Hb)
    as (s & il & tex & txt & _ & _ & _ & _ & _ & ->).
  cbn [response_of function_points integral_points] in Hpts.
  assert (H : exists f, series L f x_vals = Ok pts).
  { destruct Hpts as [H | H]; apply series_or_None_Some in H; eauto. }
  destruct H as (f & H). rewrite Hx in H.
  apply series_Ok_inv in H. destruct H as (yv & items & _ & _ & Ex & _).
  rewrite Ex, Hclean.
  repeat split; try exact Heven; vm_compute; reflexivity.
Qed.

End Shapes.

(** X11. On a 1-d array of floats and complex numbers the sanitizer
    returns a list of the same length in which no float is NaN or infinite
    and every complex entry is the input entry; on an array of two or more
    dimensions it returns the rows as nested lists, untouched, so that a
    NaN or an infinity inside a row is not replaced. *)
Theorem clean_array_for_json_by_shape :
  (forall l,
      exists out,
        clean_array_for_json (Nd1 l) = Ok out
        /\ List.length out = List.length l
        /\ Forall (fun y => forall v, y = PyFloat v -> ~ non_finite v) out
        /\ (forall i re im, nth_error l i = Some (C128 re im) ->
              nth_error out i = Some (PyComplex re im)))
  /\ (forall rows,
        (forall r e, In r rows -> r <> Nd0 e) ->
        clean_array_for_json (NdN rows) = Ok (map tolist rows))
  /\ clean_array_for_json (NdN [Nd1 [F64 nan; F64 infinity]])
     = Ok [PyList [PyFloat nan; PyFloat infinity]].
Proof.
  split.
  - intros l. exists (map clean_element l).
    split; [apply clean_array_for_json_Nd1 |]. split; [apply length_map |]. split.
    + apply Forall_forall. intros y Hy v ->.
      apply in_map_iff in Hy. destruct Hy as (e & He & _).
      exact (clean_item_float_finite _ v He).
    + intros i re im Hi. rewrite nth_error_map, Hi. reflexivity.
  - split; [| reflexivity]. intros rows Hrows.
    unfold clean_array_for_json. cbn [tolist iterate bind]. f_equal.
    rewrite map_map. apply map_ext_in. intros r Hr.
    destruct r as [e | l | rows']; [now destruct (Hrows _ e Hr) | |]; reflexivity.
Qed.

(** ** Examples on the recorded instance *)

(** C3. The code at function [Matrix([[x, x**9]])]: the lambdified matrix
    evaluates to an array of shape (1, 2, 200); the clamp turns the values
    above 1e6 into NaN, the sanitizer receives one nested list, which is
    not a float, and returns it untouched: the response is a success whose
    y holds NaN where the claim wants null. *)
Lemma nested_series_keeps_nan :
  (exists a b,
      apply (Row x_ (Pow x_ 9)) x_vals = Ok (NdN [NdN [Nd1 a; Nd1 b]])
      /\ hd_error b = Some (F64 (-1000000000)))
  /\ exists p pts row1 row2,
       fst (run (req "Matrix([[x, x**9]])")) = Ok (mk_response 200 (Success p))
       /\ function_points p = Some pts
       /\ List.length (xs pts) = 200%nat
       /\ ys pts = [PyList [PyList row1; PyList row2]]
       /\ List.length row2 = 200%nat
       /\ hd_error row2 = Some (PyFloat nan).
Proof.
  split.
  - pose (y := apply (Row x_ (Pow x_ 9)) x_vals).
    exists (match y with Ok (NdN [NdN [Nd1 a; _]]) => a | _ => [] end),
      (match y with Ok (NdN [NdN [_; Nd1 b]]) => b | _ => [] end).
    split; vm_compute; reflexivity.
  - pose (p := payload_of_run (run (req "Matrix([[x, x**9]])"))).
    pose (pts := points_or_empty (function_points p)).
    exists p, pts,
      (match ys pts with [PyList [PyList a; _]] => a | _ => [] end),
      (match ys pts with [PyList [_; PyList b]] => b | _ => [] end).
    repeat split; vm_compute; reflexivity.
Qed.

(** C5. The code at function [5]: the request succeeds, the integral [5*x]
    has its 200 points, and the function series is null, the lambdified
    constant returning a bare number on which the sanitizer raises, where
    the claim wants the function sampled at 200 points. *)
Lemma constant_function_has_no_series :
  apply (Num 5) x_vals = Ok (Nd0 (F64 5))
  /\ series libs (Num 5) x_vals = Raise "'float' object is not iterable"
  /\ exists p ip,
       fst (run (req "5")) = Ok (mk_response 200 (Success p))
       /\ integral_text p = "5*x"
       /\ function_points p = None
       /\ integral_points p = Some ip
       /\ List.length (xs ip) = 200%nat
       /\ List.length (ys ip) = 200%nat.
Proof.
  split; [vm_compute; reflexivity |]. split; [vm_compute; reflexivity |].
  pose (p := payload_of_run (run (req "5"))).
  exists p, (points_or_empty (integral_points p)).
  repeat split; vm_compute; reflexivity.
Qed.

(** X12: the matrix, whose second row exceeds 1e6 at both ends of the grid
    and stays below it in the middle. *)
Lemma returned_numbers_within_range_witness :
  (exists row1 row2,
      ys matrix_function_points = [PyList [PyList row1; PyList row2]]
      /\ nth_error row2 0 = Some (PyFloat nan)
      /\ nth_error row2 54 = Some (PyFloat (-0x1.aaf025e5855eap+19)))
  /\ forallb within_range (ys matrix_function_points) = true
  /\ Forall (fun e => forall v, e = PyFloat v -> ~ non_finite v)
            (ys matrix_function_points)
  /\ Forall (fun e => e = PyNone \/ exists v, e = PyFloat v /\ ~ non_finite v)
            (xs matrix_function_points).
Proof.
  split.
  - exists (match ys matrix_function_points with
            | [PyList [PyList a; _]] => a
            | _ => []
            end),
      (match ys matrix_function_points with
       | [PyList [_; PyList b]] => b
       | _ => []
       end).
    repeat split; vm_compute; reflexivity.
  - apply (returned_numbers_within_range libs g0 (req "Matrix([[x, x**9]])")
             (response_of_run (run (req "Matrix([[x, x**9]])")))
             (payload_of_run (run (req "Matrix([[x, x**9]])")))
             matrix_function_points).
    + vm_compute. reflexivity.
    + vm_compute. reflexivity.
    + left. vm_compute. reflexivity.
Defined.

(** X13: [x**2]. *)
Lemma series_x_is_default_grid_witness :
  exists pts,
    function_points (payload_of_run (run (req "x**2"))) = Some pts
    /\ xs pts = map PyFloat (linspace (-10) 10 200)
    /\ List.length (xs pts) = 200%nat
    /\ hd_error (xs pts) = Some (PyFloat (-10))
    /\ last (xs pts) PyNone = PyFloat 10
    /\ evenly_spaced (20 / 199) 0x1p-46 (linspace (-10) 10 200) = true.
Proof.
  exists (points_or_empty (function_points (payload_of_run (run (req "x**2"))))).
  split; [vm_compute; reflexivity |].
  apply (series_x_is_default_grid libs g0 (req "x**2")
           (response_of_run (run (req "x**2")))
           (payload_of_run (run (req "x**2")))).
  - vm_compute. reflexivity.
  - vm_compute. reflexivity.
  - left. vm_compute. reflexivity.
Defined.
